(** * The per-connection API root of the juju state server

    A shallow embedding of [state/apiserver/root.go]: the [srvRoot] object a
    client talks to after login, its role gates, its facade accessors, its
    watcher accessors and its teardown.

    Go methods with a pointer receiver become functions of the receiver and
    of a [World], the mutable objects the receiver points to.  A Go result
    pair of a pointer and an error is kept as a pair of options, nil being
    [None]. *)

From stdpp Require Import base option list strings gmap fin_maps.

Open Scope string_scope.

(** ** Errors *)

(** Modelled from the spec: the error values [common.ErrPerm],
    [common.ErrBadId] and [common.ErrUnknownWatcher] are declared in package
    [common], outside root.go.  The spec's taxonomy (section 7) gives three
    distinct terminal errors; [ErrOther] stands for any other error a facade
    constructor may report. *)
Inductive error_value : Type :=
  | ErrPerm
  | ErrBadId
  | ErrUnknownWatcher
  | ErrOther (msg : string).

(** A Go [error]: [None] is nil. *)
Definition error : Type := option error_value.

#[global] Instance error_value_eq_dec : EqDecision error_value.
Proof. solve_decision. Defined.

(** A pointer to a [common.Resources] object, as an address. *)
Definition ResourcesPtr : Type := positive.

(** ** What root.go takes from other packages *)

(** The types and helpers root.go uses but does not define.  The helpers
    that inspect an entity or a resource are functions of it: the entity is
    read-only for the root's lifetime and its classification is fixed
    (spec, section 3).  Nothing else is assumed of them. *)
Class Externals : Type := {
  (** A pointer to [state.State], the backing store handle. *)
  State : Type;
  (** A [state.TaggedAuthenticator] value. *)
  Entity : Type;
  (** [e.Tag()]. *)
  Tag : Entity -> string;
  (** Whether the dynamic type of [e] is pointer to [state.Machine], the
      type assertion of [AuthMachineAgent]. *)
  isMachine : Entity -> bool;
  (** [state.MachineJob] and its constant [state.JobManageEnviron]. *)
  MachineJob : Type;
  JobManageEnviron : MachineJob;
  (** The package helpers [isAgent] and [isMachineWithJob]. *)
  isAgent : Entity -> bool;
  isMachineWithJob : Entity -> MachineJob -> bool;
  (** [common.Resource]: what a registry holds. *)
  Resource : Type;
  (** The error a resource's [Stop()] returns. *)
  StopResult : Resource -> error;
  (** The three watcher capabilities, and the type assertions of a
      non-nil resource to [state.NotifyWatcher], to [state.StringsWatcher]
      and to pointer to [multiwatcher.Watcher]. *)
  StateNotifyWatcher : Type;
  StateStringsWatcher : Type;
  MultiwatcherWatcher : Type;
  asNotifyWatcher : Resource -> option StateNotifyWatcher;
  asStringsWatcher : Resource -> option StateStringsWatcher;
  asMultiWatcher : Resource -> option MultiwatcherWatcher;
  (** The facade objects built by packages [machine], [deployer] and
      [upgrader]. *)
  MachinerAPI : Type;
  AgentAPI : Type;
  DeployerAPI : Type;
  UpgraderAPI : Type;
  (** The client facade of package [client], embedded in the root. *)
  ClientAPI : Type;
}.

Section Root.
Context `{Ext : Externals}.

(** ** The world: registries and stopped resources *)

(** Modelled from the spec: [common.Resources] is declared outside root.go.
    Section 3: a mapping from string id to resource. *)
Definition Resources : Type := gmap string Resource.

(** The mutable objects a root points to: every registry by address, the
    resources whose [Stop] has been called (in call order), and the stop
    errors that were logged. *)
Record World : Type := mkWorld {
  heap : gmap ResourcesPtr Resources;
  stopped : list Resource;
  logged : list error_value;
}.

(** State passing: a computation reads and may replace the world. *)
Definition M (A : Type) : Type := World -> A * World.

Definition ret {A : Type} (a : A) : M A := fun w => (a, w).

Definition bind {A B : Type} (k : A -> M B) (m : M A) : M B :=
  fun w => let '(a, w') := m w in k a w'.

#[global] Instance M_ret : MRet M := @ret.
#[global] Instance M_bind : MBind M := @bind.

Definition gets {A : Type} (f : World -> A) : M A := fun w => (f w, w).

Definition modify (f : World -> World) : M unit := fun w => (tt, f w).

(** The value a computation returns and the world it leaves. *)
Definition value_of {A : Type} (m : M A) (w : World) : A := fst (m w).
Definition world_after {A : Type} (m : M A) (w : World) : World := snd (m w).

(** ** The registry operations root.go calls *)

(** Modelled from the spec: [Get] of [common.Resources] is outside
    root.go.
    Section 4.1: [Get(id)] gives the resource or reports a miss; here a miss
    is the nil resource.  A lookup changes nothing. *)
Definition Get (rs : ResourcesPtr) (id : string) : M (option Resource) :=
  gets (fun w => heap w !! rs ≫= fun reg => reg !! id).

(** Modelled from the spec: a resource's [Stop()] is outside root.go.
    Section 6: a registered resource exposes a stop operation.  The call is
    recorded in [stopped] and its error is returned. *)
Definition Stop (x : Resource) : M error :=
  modify (fun w => mkWorld (heap w) (stopped w ++ [x]) (logged w));;
  mret (StopResult x).

(** Logging of a stop error. *)
Definition logError (e : error_value) : M unit :=
  modify (fun w => mkWorld (heap w) (stopped w) (logged w ++ [e])).

(** Stop each resource of a list in turn; an error is logged and the loop
    goes on. *)
Fixpoint stopEach (xs : list Resource) : M unit :=
  match xs with
  | [] => mret tt
  | x :: xs' =>
      err ← Stop x;
      match err with
      | Some e => logError e
      | None => mret tt
      end;;
      stopEach xs'
  end.

(** Modelled from the spec: [StopAll] of [common.Resources] is outside
    root.go.
    Section 4.1: remove and stop every tracked resource, each stop attempted
    independently, a failure not blocking the rest; section 7: failures are
    logged, not propagated. *)
Definition StopAll (rs : ResourcesPtr) : M unit :=
  oreg ← gets (fun w => heap w !! rs);
  match oreg with
  | None => mret tt
  | Some reg =>
      stopEach (snd <$> map_to_list reg);;
      modify (fun w => mkWorld (<[rs := ∅]> (heap w)) (stopped w) (logged w))
  end.

(** Modelled from the spec: [common.NewResources] is outside root.go.
    Section 2: a root is constructed with a fresh registry.  The new registry
    is empty and lives at an address no registry has. *)
Definition NewResources : M ResourcesPtr :=
  rs ← gets (fun w => fresh (dom (heap w)));
  modify (fun w => mkWorld (<[rs := ∅]> (heap w)) (stopped w) (logged w));;
  mret rs.

(** ** The root *)

(** The one field of [Server] root.go reads. *)
Record Server : Type := mkServer {
  state : State;
}.

(** [srvRoot]: a single client's connection after login.  The embedded
    [clientAPI] holds a pointer, nil until [newSrvRoot] sets it. *)
Record srvRoot : Type := mkSrvRoot {
  clientAPI : option ClientAPI;
  srv : Server;
  resources : ResourcesPtr;
  entity : Entity;
}.

(** Modelled from the spec: the interface [common.Authorizer] is declared
    outside root.go.  Section 6: the authorization queries exposed to
    facades are the five the root implements below. *)
Record Authorizer : Type := mkAuthorizer {
  auth_AuthMachineAgent : M bool;
  auth_AuthOwner : string -> M bool;
  auth_AuthEnvironManager : M bool;
  auth_AuthClient : M bool;
  auth_GetAuthTag : M string;
}.

(** The facade constructors of the other packages.  Each is handed the
    backing store, the registry (but for [NewAgentAPI]) and the authorizer,
    runs in the world, and returns a Go pair. *)
Class Facades : Type := {
  NewClientAPI : State -> ResourcesPtr -> Authorizer -> M ClientAPI;
  NewMachinerAPI :
    State -> ResourcesPtr -> Authorizer -> M (option MachinerAPI * error);
  NewAgentAPI : State -> Authorizer -> M (option AgentAPI * error);
  NewDeployerAPI :
    State -> ResourcesPtr -> Authorizer -> M (option DeployerAPI * error);
  NewUpgraderAPI :
    State -> ResourcesPtr -> Authorizer -> M (option UpgraderAPI * error);
}.

Context `{Fac : Facades}.

(** *** Authorization queries *)

(** [AuthMachineAgent] returns whether the current client is a machine
    agent. *)
Definition AuthMachineAgent (r : srvRoot) : M bool :=
  mret (isMachine (entity r)).

(** [AuthOwner] returns whether the authenticated user's tag matches the
    given entity tag. *)
Definition AuthOwner (r : srvRoot) (tag : string) : M bool :=
  mret (bool_decide (Tag (entity r) = tag)).

(** [AuthEnvironManager] returns whether the authenticated user is a
    machine running the ManageEnviron job. *)
Definition AuthEnvironManager (r : srvRoot) : M bool :=
  mret (isMachineWithJob (entity r) JobManageEnviron).

(** [AuthClient] returns whether the authenticated entity is a client
    user. *)
Definition AuthClient (r : srvRoot) : M bool :=
  mret (negb (isAgent (entity r))).

(** [GetAuthTag] returns the tag of the authenticated entity. *)
Definition GetAuthTag (r : srvRoot) : M string :=
  mret (Tag (entity r)).

(** The root passed where a [common.Authorizer] is expected. *)
Definition asAuthorizer (r : srvRoot) : Authorizer :=
  {| auth_AuthMachineAgent := AuthMachineAgent r;
     auth_AuthOwner := AuthOwner r;
     auth_AuthEnvironManager := AuthEnvironManager r;
     auth_AuthClient := AuthClient r;
     auth_GetAuthTag := GetAuthTag r |}.

(** *** Construction and teardown *)

(** [newSrvRoot]: the client facade is built from the root before the root
    holds it; the authorizer it is given reads the entity only. *)
Definition newSrvRoot (srv0 : Server) (entity0 : Entity) : M srvRoot :=
  rs ← NewResources;
  let r := mkSrvRoot None srv0 rs entity0 in
  api ← NewClientAPI (state srv0) (resources r) (asAuthorizer r);
  mret (mkSrvRoot (Some api) srv0 rs entity0).

(** [Kill] implements rpc.Killer: it cleans up any resources that need
    cleaning up. *)
Definition Kill (r : srvRoot) : M unit :=
  StopAll (resources r).

(** *** Role gates *)

(** [requireAgent] checks whether the current client is an agent. *)
Definition requireAgent (r : srvRoot) : M error :=
  if negb (isAgent (entity r)) then mret (Some ErrPerm) else mret None.

(** [requireClient] returns an error unless the current client is a juju
    client user. *)
Definition requireClient (r : srvRoot) : M error :=
  if isAgent (entity r) then mret (Some ErrPerm) else mret None.

(** *** Facade accessors *)

(** [Machiner]: the id argument is reserved for future use and currently
    needs to be empty. *)
Definition Machiner (r : srvRoot) (id : string)
  : M (option MachinerAPI * error) :=
  if bool_decide (id ≠ "") then mret (None, Some ErrBadId)
  else NewMachinerAPI (state (srv r)) (resources r) (asAuthorizer r).

(** [MachineAgent]: the id argument must currently be empty. *)
Definition MachineAgent (r : srvRoot) (id : string)
  : M (option AgentAPI * error) :=
  if bool_decide (id ≠ "") then mret (None, Some ErrBadId)
  else NewAgentAPI (state (srv r)) (asAuthorizer r).

(** [Deployer]: the id argument must be empty. *)
Definition Deployer (r : srvRoot) (id : string)
  : M (option DeployerAPI * error) :=
  if bool_decide (id ≠ "") then mret (None, Some ErrBadId)
  else NewDeployerAPI (state (srv r)) (resources r) (asAuthorizer r).

(** [Upgrader]: the id argument must be empty. *)
Definition Upgrader (r : srvRoot) (id : string)
  : M (option UpgraderAPI * error) :=
  if bool_decide (id ≠ "") then mret (None, Some ErrBadId)
  else NewUpgraderAPI (state (srv r)) (resources r) (asAuthorizer r).

(** *** Watcher accessors *)

(** The wrappers root.go builds; the field names carry the wrapper's
    initials because Rocq records share one name space. *)
Record srvNotifyWatcher : Type := mkSrvNotifyWatcher {
  nw_watcher : StateNotifyWatcher;
  nw_id : string;
  nw_resources : ResourcesPtr;
}.

Record srvStringsWatcher : Type := mkSrvStringsWatcher {
  sw_watcher : StateStringsWatcher;
  sw_id : string;
  sw_resources : ResourcesPtr;
}.

Record srvClientAllWatcher : Type := mkSrvClientAllWatcher {
  aw_watcher : MultiwatcherWatcher;
  aw_id : string;
  aw_resources : ResourcesPtr;
}.

(** [NotifyWatcher]: agents only; the resource under [id] must be a
    [state.NotifyWatcher]. *)
Definition NotifyWatcher (r : srvRoot) (id : string)
  : M (option srvNotifyWatcher * error) :=
  err ← requireAgent r;
  match err with
  | Some e => mret (None, Some e)
  | None =>
      x ← Get (resources r) id;
      match x ≫= asNotifyWatcher with
      | None => mret (None, Some ErrUnknownWatcher)
      | Some watcher =>
          mret (Some (mkSrvNotifyWatcher watcher id (resources r)), None)
      end
  end.

(** [StringsWatcher]: agents only; the resource under [id] must be a
    [state.StringsWatcher]. *)
Definition StringsWatcher (r : srvRoot) (id : string)
  : M (option srvStringsWatcher * error) :=
  err ← requireAgent r;
  match err with
  | Some e => mret (None, Some e)
  | None =>
      x ← Get (resources r) id;
      match x ≫= asStringsWatcher with
      | None => mret (None, Some ErrUnknownWatcher)
      | Some watcher =>
          mret (Some (mkSrvStringsWatcher watcher id (resources r)), None)
      end
  end.

(** [AllWatcher]: clients only; the resource under [id] must be a pointer
    to a [multiwatcher.Watcher]. *)
Definition AllWatcher (r : srvRoot) (id : string)
  : M (option srvClientAllWatcher * error) :=
  err ← requireClient r;
  match err with
  | Some e => mret (None, Some e)
  | None =>
      x ← Get (resources r) id;
      match x ≫= asMultiWatcher with
      | None => mret (None, Some ErrUnknownWatcher)
      | Some watcher =>
          mret (Some (mkSrvClientAllWatcher watcher id (resources r)), None)
      end
  end.

(** *** Liveness *)

Inductive srvPinger : Type := mkSrvPinger.

(** [Pinger] returns an object with a single Ping method that does
    nothing. *)
Definition Pinger (r : srvRoot) (id : string) : M (srvPinger * error) :=
  mret (mkSrvPinger, None).

(** [Ping] is a no-op used by the client heartbeat monitor. *)
Definition Ping (p : srvPinger) : M unit := mret tt.

(** ** Vocabulary of the properties *)

(** The resource the root's registry holds under [id], if any. *)
Definition registered (r : srvRoot) (id : string) (w : World)
  : option Resource :=
  value_of (Get (resources r) id) w.

(** The registry has nothing under [id], or what it has does not pass the
    type assertion [cast]. *)
Definition lacks {A : Type} (cast : Resource -> option A)
    (r : srvRoot) (id : string) (w : World) : Prop :=
  registered r id w = None
  ∨ ∃ x, registered r id w = Some x ∧ cast x = None.

(** The three errors of the taxonomy. *)
Definition taxonomy (e : error_value) : Prop :=
  e = ErrPerm ∨ e = ErrBadId ∨ e = ErrUnknownWatcher.

(** A call that, whenever it reports an error of the taxonomy, returns no
    object and leaves the world as it found it. *)
Definition fails_clean {A : Type} (m : M (option A * error)) : Prop :=
  ∀ w e,
    (value_of m w).2 = Some e → taxonomy e →
    (value_of m w).1 = None ∧ world_after m w = w.

(** A constructor call that hands no facade when its authorizer [a] answers
    [AuthClient] with true. *)
Definition rejects_clients {A : Type} (a : Authorizer)
    (call : M (option A * error)) : Prop :=
  ∀ w, value_of (auth_AuthClient a) w = true → (value_of call w).1 = None.

(** A result pair of a watcher accessor in good shape: a wrapper and the
    nil error, or no wrapper and one of the two errors the accessors
    report. *)
Definition wrapper_xor_error {A : Type} (res : option A * error) : Prop :=
  (is_Some res.1 ∧ res.2 = None)
  ∨ (res.1 = None
     ∧ (res.2 = Some ErrPerm ∨ res.2 = Some ErrUnknownWatcher)).

(** A computation that leaves every registry as it is. *)
Definition keeps_heap {A : Type} (m : M A) : Prop :=
  ∀ w, heap (world_after m w) = heap w.

End Root.

(** ** A concrete instance

    One way to fill in what root.go takes from other packages, used to run
    the root on explicit inputs. *)
Module Demo.

(** Machines (with or without the ManageEnviron job), units and users. *)
Inductive entity_t : Type :=
  | MachineEntity (tag : string) (manager : bool)
  | UnitEntity (tag : string)
  | UserEntity (tag : string).

Definition tag_of (e : entity_t) : string :=
  match e with
  | MachineEntity t _ | UnitEntity t | UserEntity t => t
  end.

Definition is_machine (e : entity_t) : bool :=
  match e with MachineEntity _ _ => true | _ => false end.

Definition is_agent (e : entity_t) : bool :=
  match e with UserEntity _ => false | _ => true end.

Definition is_manager (e : entity_t) (j : unit) : bool :=
  match e with MachineEntity _ m => m | _ => false end.

(** Resources of four dynamic types, each with the error its stop
    returns. *)
Inductive kind_t : Type := KNotify | KStrings | KMulti | KPlain.

Record resource_t : Type := mkResource {
  kind : kind_t;
  serial : nat;
  stop_error : error;
}.

Definition as_kind (k : kind_t) (x : resource_t) : option nat :=
  match k, kind x with
  | KNotify, KNotify | KStrings, KStrings | KMulti, KMulti =>
      Some (serial x)
  | _, _ => None
  end.

(** A facade remembers the store and the registry it was scoped to. *)
Record facade_t : Type := mkFacade {
  facade_state : nat;
  facade_resources : option ResourcesPtr;
}.

#[export] Instance ext : Externals := {|
  State := nat;
  Entity := entity_t;
  Tag := tag_of;
  isMachine := is_machine;
  MachineJob := unit;
  JobManageEnviron := tt;
  isAgent := is_agent;
  isMachineWithJob := is_manager;
  Resource := resource_t;
  StopResult := stop_error;
  StateNotifyWatcher := nat;
  StateStringsWatcher := nat;
  MultiwatcherWatcher := nat;
  asNotifyWatcher := as_kind KNotify;
  asStringsWatcher := as_kind KStrings;
  asMultiWatcher := as_kind KMulti;
  MachinerAPI := facade_t;
  AgentAPI := facade_t;
  DeployerAPI := facade_t;
  UpgraderAPI := facade_t;
  ClientAPI := facade_t;
|}.

(** A constructor that admits machine agents only and touches nothing. *)
Definition new_facade (st : nat) (rs : option ResourcesPtr) (a : Authorizer)
  : M (option facade_t * error) :=
  auth_AuthMachineAgent a ≫= fun ok : bool =>
  if ok then mret (Some (mkFacade st rs), None)
  else mret (None, Some ErrPerm).

#[export] Instance fac : Facades := {|
  NewClientAPI := fun st rs _ => mret (mkFacade st (Some rs));
  NewMachinerAPI := fun st rs a => new_facade st (Some rs) a;
  NewAgentAPI := fun st a => new_facade st None a;
  NewDeployerAPI := fun st rs a => new_facade st (Some rs) a;
  NewUpgraderAPI := fun st rs a => new_facade st (Some rs) a;
|}.

(** Two roots over the registry at address 1: a machine agent's and a
    user's. *)
Definition agent_root : srvRoot :=
  mkSrvRoot None (mkServer 0) 1%positive (MachineEntity "machine-0" false).

Definition client_root : srvRoot :=
  mkSrvRoot None (mkServer 0) 1%positive (UserEntity "user-admin").

(** A notify watcher whose stop fails, and a strings watcher. *)
Definition notify_res : resource_t :=
  mkResource KNotify 7 (Some (ErrOther "watcher died")).

Definition strings_res : resource_t := mkResource KStrings 8 None.

(** A world whose registry is empty, and one where ids 1 and 2 are
    registered. *)
Definition empty_world : World :=
  mkWorld {[ 1%positive := (∅ : gmap string resource_t) ]} [] [].

Definition busy_world : World :=
  mkWorld
    {[ 1%positive :=
         ({[ "1" := notify_res; "2" := strings_res ]}
            : gmap string resource_t) ]}
    [] [].

(** A unit agent's root over the registry at address 2, and a world where
    both registries hold a watcher under id 1. *)
Definition unit_root : srvRoot :=
  mkSrvRoot None (mkServer 0) 2%positive (UnitEntity "unit-wordpress-0").

Definition two_registries : World :=
  mkWorld
    {[ 1%positive := ({[ "1" := notify_res ]} : gmap string resource_t);
       2%positive := ({[ "1" := strings_res ]} : gmap string resource_t) ]}
    [] [].

End Demo.

(** ** Properties of the root *)

Section Properties.
Context {Ext : Externals} {Fac : Facades}.
Implicit Types (r : srvRoot) (id tag : string) (w : World).

(** Unfold the state-passing combinators. *)
Ltac run :=
  unfold value_of, world_after, registered, Get, mbind, mret, M_bind, M_ret,
    bind, ret, gets, modify in *;
  simpl in *.

(** *** Role gates *)

Lemma requireAgent_run r w :
  requireAgent r w = (if isAgent (entity r) then None else Some ErrPerm, w).
Proof. unfold requireAgent. by destruct (isAgent (entity r)). Qed.

Lemma requireClient_run r w :
  requireClient r w = (if isAgent (entity r) then Some ErrPerm else None, w).
Proof. unfold requireClient. by destruct (isAgent (entity r)). Qed.

Lemma AuthClient_run r w :
  AuthClient r w = (negb (isAgent (entity r)), w).
Proof. reflexivity. Qed.

(** *** The id guard of the facade accessors *)

Lemma Machiner_nonempty r id w :
  id ≠ "" → Machiner r id w = ((None, Some ErrBadId), w).
Proof. intros Hid. unfold Machiner. by rewrite bool_decide_eq_true_2. Qed.

Lemma MachineAgent_nonempty r id w :
  id ≠ "" → MachineAgent r id w = ((None, Some ErrBadId), w).
Proof. intros Hid. unfold MachineAgent. by rewrite bool_decide_eq_true_2. Qed.

Lemma Deployer_nonempty r id w :
  id ≠ "" → Deployer r id w = ((None, Some ErrBadId), w).
Proof. intros Hid. unfold Deployer. by rewrite bool_decide_eq_true_2. Qed.

Lemma Upgrader_nonempty r id w :
  id ≠ "" → Upgrader r id w = ((None, Some ErrBadId), w).
Proof. intros Hid. unfold Upgrader. by rewrite bool_decide_eq_true_2. Qed.

(** With the empty id an accessor is its constructor's call. *)
Lemma Machiner_empty r :
  Machiner r "" = NewMachinerAPI (state (srv r)) (resources r) (asAuthorizer r).
Proof. reflexivity. Qed.

Lemma MachineAgent_empty r :
  MachineAgent r "" = NewAgentAPI (state (srv r)) (asAuthorizer r).
Proof. reflexivity. Qed.

Lemma Deployer_empty r :
  Deployer r "" = NewDeployerAPI (state (srv r)) (resources r) (asAuthorizer r).
Proof. reflexivity. Qed.

Lemma Upgrader_empty r :
  Upgrader r "" = NewUpgraderAPI (state (srv r)) (resources r) (asAuthorizer r).
Proof. reflexivity. Qed.

(** *** The watcher accessors, case by case *)

Lemma NotifyWatcher_run r id w :
  NotifyWatcher r id w =
    (if isAgent (entity r) then
       match registered r id w ≫= asNotifyWatcher with
       | Some watcher =>
           (Some (mkSrvNotifyWatcher watcher id (resources r)), None)
       | None => (None, Some ErrUnknownWatcher)
       end
     else (None, Some ErrPerm), w).
Proof.
  unfold NotifyWatcher. run. rewrite requireAgent_run.
  destruct (isAgent (entity r)); [|done].
  by destruct (option_bind _ _ asNotifyWatcher _).
Qed.

Lemma StringsWatcher_run r id w :
  StringsWatcher r id w =
    (if isAgent (entity r) then
       match registered r id w ≫= asStringsWatcher with
       | Some watcher =>
           (Some (mkSrvStringsWatcher watcher id (resources r)), None)
       | None => (None, Some ErrUnknownWatcher)
       end
     else (None, Some ErrPerm), w).
Proof.
  unfold StringsWatcher. run. rewrite requireAgent_run.
  destruct (isAgent (entity r)); [|done].
  by destruct (option_bind _ _ asStringsWatcher _).
Qed.

Lemma AllWatcher_run r id w :
  AllWatcher r id w =
    (if isAgent (entity r) then (None, Some ErrPerm)
     else
       match registered r id w ≫= asMultiWatcher with
       | Some watcher =>
           (Some (mkSrvClientAllWatcher watcher id (resources r)), None)
       | None => (None, Some ErrUnknownWatcher)
       end, w).
Proof.
  unfold AllWatcher. run. rewrite requireClient_run.
  destruct (isAgent (entity r)); [done|].
  by destruct (option_bind _ _ asMultiWatcher _).
Qed.

Lemma lacks_bind {A : Type} (cast : Resource -> option A) r id w :
  lacks cast r id w ↔ registered r id w ≫= cast = None.
Proof.
  unfold lacks. split.
  - intros [-> | (x & -> & Hx)]; done.
  - destruct (registered r id w) as [x|]; simpl; [|by left].
    intros Hx. right. by exists x.
Qed.

(** *** Teardown *)

Lemma stopEach_run (xs : list Resource) w :
  stopEach xs w =
    (tt, mkWorld (heap w) (stopped w ++ xs)
           (logged w ++ omap StopResult xs)).
Proof.
  revert w. induction xs as [|x xs IH]; intros w.
  - destruct w. simpl. by rewrite !app_nil_r.
  - cbn [stopEach]. unfold Stop, logError. run.
    destruct (StopResult x) as [e|]; simpl; rewrite IH; simpl;
      by rewrite <- !app_assoc.
Qed.

Lemma StopAll_run (rs : ResourcesPtr) (reg : Resources) w :
  heap w !! rs = Some reg →
  StopAll rs w =
    (tt, mkWorld (<[rs := ∅]> (heap w))
           (stopped w ++ (snd <$> map_to_list reg))
           (logged w ++ omap StopResult (snd <$> map_to_list reg))).
Proof.
  intros Hreg. unfold StopAll. run. rewrite Hreg.
  by rewrite stopEach_run.
Qed.

Lemma StopAll_dangling (rs : ResourcesPtr) w :
  heap w !! rs = None → StopAll rs w = (tt, w).
Proof. intros Hreg. unfold StopAll. run. by rewrite Hreg. Qed.

Lemma NewResources_fresh w :
  let '(rs, w') := NewResources w in
  heap w !! rs = None ∧ heap w' !! rs = Some ∅ ∧ stopped w' = stopped w.
Proof.
  unfold NewResources. run. split_and!; [|by rewrite lookup_insert_eq|done].
  apply not_elem_of_dom, is_fresh.
Qed.

(** X9.  A second [Kill] finds nothing to stop: it stops no resource, logs
    nothing and leaves the world as the first left it. *)
Lemma Kill_idempotent r w :
  world_after (Kill r) (world_after (Kill r) w) = world_after (Kill r) w.
Proof.
  unfold Kill, world_after.
  destruct (heap w !! resources r) as [reg|] eqn:Hreg.
  - rewrite (StopAll_run _ reg w) by done. simpl.
    rewrite (StopAll_run _ ∅) by (simpl; apply lookup_insert_eq). simpl.
    unfold Resources.
    by rewrite map_to_list_empty, !app_nil_r, insert_insert_eq.
  - rewrite (StopAll_dangling _ w) by done. simpl.
    by rewrite StopAll_dangling.
Qed.

(** *** The claims *)

(** C1, as amended.  For each of the facade accessors [Machiner],
    [MachineAgent], [Deployer] and [Upgrader] and every non-empty id, the
    accessor returns no facade and [ErrBadId], and the world, every registry
    in it, is the one the call started from. *)
Theorem facade_accessor_bad_id r id w :
  id ≠ "" →
  Machiner r id w = ((None, Some ErrBadId), w)
  ∧ MachineAgent r id w = ((None, Some ErrBadId), w)
  ∧ Deployer r id w = ((None, Some ErrBadId), w)
  ∧ Upgrader r id w = ((None, Some ErrBadId), w).
Proof.
  intros Hid. repeat split.
  - by apply Machiner_nonempty.
  - by apply MachineAgent_nonempty.
  - by apply Deployer_nonempty.
  - by apply Upgrader_nonempty.
Qed.

(** C2, as amended.  When the entity is an agent and the registry holds a
    notify watcher under id [X], [NotifyWatcher X] returns the wrapper of
    that watcher, of [X] and of the root's registry, with no error, and
    [AllWatcher X] returns [ErrPerm]: its client-only gate comes before the
    lookup.  Neither call changes the world. *)
Theorem agent_notify_then_all r X w (x : Resource) (nw : StateNotifyWatcher) :
  isAgent (entity r) = true →
  registered r X w = Some x →
  asNotifyWatcher x = Some nw →
  NotifyWatcher r X w =
    ((Some (mkSrvNotifyWatcher nw X (resources r)), None), w)
  ∧ AllWatcher r X w = ((None, Some ErrPerm), w).
Proof.
  intros Hagent Hreg Hcast.
  rewrite NotifyWatcher_run, AllWatcher_run, Hagent, Hreg. simpl.
  by rewrite Hcast.
Qed.

(** C3, as amended.  For each watcher accessor and every id, when the
    registry has nothing under the id or what it has fails the accessor's
    type assertion, the accessor returns no wrapper and leaves the world
    alone; the error is [ErrUnknownWatcher] when the entity passes the
    accessor's role gate (agents for [NotifyWatcher] and [StringsWatcher],
    clients for [AllWatcher]) and [ErrPerm] when it does not.  A wrapper
    that is returned holds the registered resource seen through the
    accessor's own type assertion. *)
Theorem watcher_accessor_miss r id w :
  (lacks asNotifyWatcher r id w →
     NotifyWatcher r id w =
       ((None, Some (if isAgent (entity r)
                     then ErrUnknownWatcher else ErrPerm)), w))
  ∧ (lacks asStringsWatcher r id w →
     StringsWatcher r id w =
       ((None, Some (if isAgent (entity r)
                     then ErrUnknownWatcher else ErrPerm)), w))
  ∧ (lacks asMultiWatcher r id w →
     AllWatcher r id w =
       ((None, Some (if isAgent (entity r)
                     then ErrPerm else ErrUnknownWatcher)), w))
  ∧ (∀ wr, (value_of (NotifyWatcher r id) w).1 = Some wr →
       registered r id w ≫= asNotifyWatcher = Some (nw_watcher wr))
  ∧ (∀ wr, (value_of (StringsWatcher r id) w).1 = Some wr →
       registered r id w ≫= asStringsWatcher = Some (sw_watcher wr))
  ∧ (∀ wr, (value_of (AllWatcher r id) w).1 = Some wr →
       registered r id w ≫= asMultiWatcher = Some (aw_watcher wr)).
Proof.
  unfold value_of.
  rewrite NotifyWatcher_run, StringsWatcher_run, AllWatcher_run.
  repeat split.
  - intros ->%lacks_bind. by destruct (isAgent (entity r)).
  - intros ->%lacks_bind. by destruct (isAgent (entity r)).
  - intros ->%lacks_bind. by destruct (isAgent (entity r)).
  - intros wr. destruct (isAgent (entity r)); [|done].
    destruct (_ ≫= asNotifyWatcher); [|done]. simpl. by intros [= <-].
  - intros wr. destruct (isAgent (entity r)); [|done].
    destruct (_ ≫= asStringsWatcher); [|done]. simpl. by intros [= <-].
  - intros wr. destruct (isAgent (entity r)); [done|].
    destruct (_ ≫= asMultiWatcher); [|done]. simpl. by intros [= <-].
Qed.

(** C4.  For every entity exactly one of [requireAgent] and
    [requireClient] returns nil, and the other returns [ErrPerm]; neither
    changes the world. *)
Theorem require_exactly_one r w :
  (requireAgent r w = (None, w) ∧ requireClient r w = (Some ErrPerm, w))
  ∨ (requireAgent r w = (Some ErrPerm, w) ∧ requireClient r w = (None, w)).
Proof.
  rewrite requireAgent_run, requireClient_run.
  destruct (isAgent (entity r)); [by left | by right].
Qed.

(** C5.  Given that each facade constructor, when it reports an error of
    the taxonomy, returns no facade and leaves the world alone, every
    accessor of the root does the same: on [ErrPerm], [ErrBadId] or
    [ErrUnknownWatcher] no facade or wrapper is returned and the world is
    unchanged.  [Pinger] never reports an error and never changes the
    world. *)
Theorem accessor_failure_frame r id :
  fails_clean (NewMachinerAPI (state (srv r)) (resources r) (asAuthorizer r)) →
  fails_clean (NewAgentAPI (state (srv r)) (asAuthorizer r)) →
  fails_clean (NewDeployerAPI (state (srv r)) (resources r) (asAuthorizer r)) →
  fails_clean (NewUpgraderAPI (state (srv r)) (resources r) (asAuthorizer r)) →
  fails_clean (Machiner r id)
  ∧ fails_clean (MachineAgent r id)
  ∧ fails_clean (Deployer r id)
  ∧ fails_clean (Upgrader r id)
  ∧ fails_clean (NotifyWatcher r id)
  ∧ fails_clean (StringsWatcher r id)
  ∧ fails_clean (AllWatcher r id)
  ∧ (∀ w, (value_of (Pinger r id) w).2 = None
          ∧ world_after (Pinger r id) w = w).
Proof.
  intros HM HA HD HU.
  assert (Hguard : ∀ (A : Type) (ctor : M (option A * error))
                     (acc : string → M (option A * error)),
    (∀ i w, i ≠ "" → acc i w = ((None, Some ErrBadId), w)) →
    acc "" = ctor → fails_clean ctor → fails_clean (acc id)).
  { intros A ctor acc Hne He Hc. destruct (decide (id = "")) as [->|Hid].
    - by rewrite He.
    - intros w e _ _. unfold value_of, world_after. by rewrite Hne. }
  split_and!.
  - exact (Hguard _ _ _ (Machiner_nonempty r) (Machiner_empty r) HM).
  - exact (Hguard _ _ _ (MachineAgent_nonempty r) (MachineAgent_empty r) HA).
  - exact (Hguard _ _ _ (Deployer_nonempty r) (Deployer_empty r) HD).
  - exact (Hguard _ _ _ (Upgrader_nonempty r) (Upgrader_empty r) HU).
  - intros w e. unfold value_of, world_after.
    rewrite NotifyWatcher_run. simpl.
    destruct (isAgent (entity r)); [|done].
    by destruct (_ ≫= asNotifyWatcher).
  - intros w e. unfold value_of, world_after.
    rewrite StringsWatcher_run. simpl.
    destruct (isAgent (entity r)); [|done].
    by destruct (_ ≫= asStringsWatcher).
  - intros w e. unfold value_of, world_after.
    rewrite AllWatcher_run. simpl.
    destruct (isAgent (entity r)); [done|].
    by destruct (_ ≫= asMultiWatcher).
  - done.
Qed.

(** C6.  After [Kill] the root's registry holds nothing under any id, and
    every resource it held before has had its stop called, whatever any
    stop returns: the stops made are those of the registry's resources,
    each once, after the earlier ones. *)
Theorem Kill_stops_all r w :
  let w' := world_after (Kill r) w in
  (∀ id, registered r id w' = None)
  ∧ (∀ id x, registered r id w = Some x → x ∈ stopped w')
  ∧ (∀ reg : Resources, heap w !! resources r = Some reg →
       heap w' !! resources r = Some ∅
       ∧ stopped w' = (stopped w ++ (snd <$> map_to_list reg))%list).
Proof.
  unfold Kill, world_after, registered, value_of, Get. run.
  destruct (heap w !! resources r) as [reg|] eqn:Hreg.
  - rewrite (StopAll_run _ reg) by done. simpl.
    rewrite lookup_insert_eq. simpl. split_and!.
    + done.
    + intros id x Hx. apply elem_of_app. right.
      apply list_elem_of_fmap. exists (id, x). split; [done|].
      by apply (elem_of_map_to_list reg id x).
    + by intros ? [= <-].
  - rewrite StopAll_dangling by done. simpl. rewrite Hreg. simpl.
    split_and!; done.
Qed.

(** C7.  With a non-empty id every agent-only facade accessor returns
    [ErrBadId], for an agent as for any other entity: the id guard comes
    first and does not look at the role.  An accessor that does return a
    facade was called with the empty id and, the constructors handing no
    facade to clients, by an agent. *)
Theorem agent_facade_needs_both r id w :
  rejects_clients (asAuthorizer r)
    (NewMachinerAPI (state (srv r)) (resources r) (asAuthorizer r)) →
  rejects_clients (asAuthorizer r)
    (NewAgentAPI (state (srv r)) (asAuthorizer r)) →
  rejects_clients (asAuthorizer r)
    (NewDeployerAPI (state (srv r)) (resources r) (asAuthorizer r)) →
  rejects_clients (asAuthorizer r)
    (NewUpgraderAPI (state (srv r)) (resources r) (asAuthorizer r)) →
  (id ≠ "" →
     Machiner r id w = ((None, Some ErrBadId), w)
     ∧ MachineAgent r id w = ((None, Some ErrBadId), w)
     ∧ Deployer r id w = ((None, Some ErrBadId), w)
     ∧ Upgrader r id w = ((None, Some ErrBadId), w))
  ∧ (is_Some (value_of (Machiner r id) w).1
     ∨ is_Some (value_of (MachineAgent r id) w).1
     ∨ is_Some (value_of (Deployer r id) w).1
     ∨ is_Some (value_of (Upgrader r id) w).1 →
     id = "" ∧ isAgent (entity r) = true).
Proof.
  intros HM HA HD HU. split.
  - intros Hid.
    auto using Machiner_nonempty, MachineAgent_nonempty, Deployer_nonempty,
      Upgrader_nonempty.
  - intros Hsome. destruct (decide (id = "")) as [->|Hid].
    + split; [done|].
      destruct (isAgent (entity r)) eqn:Hagent; [done|]. exfalso.
      assert (Hc : value_of (auth_AuthClient (asAuthorizer r)) w = true).
      { unfold value_of. cbn [asAuthorizer auth_AuthClient].
        rewrite AuthClient_run. simpl. by rewrite Hagent. }
      specialize (HM _ Hc). specialize (HA _ Hc).
      specialize (HD _ Hc). specialize (HU _ Hc).
      rewrite Machiner_empty, MachineAgent_empty, Deployer_empty,
        Upgrader_empty, HM, HA, HD, HU in Hsome.
      destruct Hsome as [H|[H|[H|H]]]; by destruct H.
    + exfalso. unfold value_of in Hsome.
      rewrite Machiner_nonempty, MachineAgent_nonempty, Deployer_nonempty,
        Upgrader_nonempty in Hsome by done.
      destruct Hsome as [H|[H|[H|H]]]; by destruct H.
Qed.

(** C8.  The five authorization queries return a value, with no error to
    report, computed from the entity alone, and leave the world, every
    registry in it, as it was; the receiver is read, never assigned. *)
Theorem auth_queries_pure r tag w :
  AuthMachineAgent r w = (isMachine (entity r), w)
  ∧ AuthOwner r tag w = (bool_decide (Tag (entity r) = tag), w)
  ∧ AuthEnvironManager r w = (isMachineWithJob (entity r) JobManageEnviron, w)
  ∧ AuthClient r w = (negb (isAgent (entity r)), w)
  ∧ GetAuthTag r w = (Tag (entity r), w).
Proof. repeat split. Qed.

(** C9.  For every root, hence every role, and every id, empty or not,
    [Pinger] returns a pinger and the nil error and changes nothing; [Ping]
    changes nothing. *)
Theorem Pinger_always_succeeds r id w (p : srvPinger) :
  Pinger r id w = ((mkSrvPinger, None), w) ∧ Ping p w = (tt, w).
Proof. split; reflexivity. Qed.

(** C10.  [AuthClient] returns true exactly when [requireClient] returns
    nil, and exactly when [requireAgent] returns [ErrPerm]. *)
Theorem AuthClient_iff_gates r w :
  (value_of (AuthClient r) w = true ↔ value_of (requireClient r) w = None)
  ∧ (value_of (AuthClient r) w = true
     ↔ value_of (requireAgent r) w = Some ErrPerm).
Proof.
  unfold value_of.
  rewrite AuthClient_run, requireClient_run, requireAgent_run. simpl.
  destruct (isAgent (entity r)); simpl; split; split; done.
Qed.

(** *** Further properties of the watcher accessors *)

(** X1.  A watcher accessor returns a wrapper exactly when the entity
    passes its role gate and the registry holds, under the id, a resource
    passing its type assertion; the wrapper then holds that watcher, the id
    asked for and the root's registry pointer. *)
Theorem watcher_wrapper_exact r id w :
  (∀ wr, (value_of (NotifyWatcher r id) w).1 = Some wr ↔
     isAgent (entity r) = true
     ∧ ∃ x nw, registered r id w = Some x ∧ asNotifyWatcher x = Some nw
               ∧ wr = mkSrvNotifyWatcher nw id (resources r))
  ∧ (∀ wr, (value_of (StringsWatcher r id) w).1 = Some wr ↔
     isAgent (entity r) = true
     ∧ ∃ x sw, registered r id w = Some x ∧ asStringsWatcher x = Some sw
               ∧ wr = mkSrvStringsWatcher sw id (resources r))
  ∧ (∀ wr, (value_of (AllWatcher r id) w).1 = Some wr ↔
     isAgent (entity r) = false
     ∧ ∃ x mw, registered r id w = Some x ∧ asMultiWatcher x = Some mw
               ∧ wr = mkSrvClientAllWatcher mw id (resources r)).
Proof.
  unfold value_of.
  rewrite NotifyWatcher_run, StringsWatcher_run, AllWatcher_run.
  assert (Hcase : ∀ (A B : Type) (cast : Resource → option A)
                    (mk : A → B) (wr : B),
    match registered r id w ≫= cast with
    | Some a => Some (mk a)
    | None => None
    end = Some wr ↔
    ∃ x a, registered r id w = Some x ∧ cast x = Some a ∧ wr = mk a).
  { intros A B cast mk wr. destruct (registered r id w) as [x|]; simpl.
    - destruct (cast x) as [a|] eqn:Hc; split.
      + intros [= <-]. by exists x, a.
      + intros (? & ? & [= <-] & Hc' & ->). congruence.
      + done.
      + intros (? & ? & [= <-] & Hc' & _). congruence.
    - split; [done | by intros (? & ? & ? & _)]. }
  split_and!; intros wr.
  - rewrite <- (Hcase _ _ asNotifyWatcher
                  (λ nw, mkSrvNotifyWatcher nw id (resources r))).
    destruct (isAgent (entity r)); simpl.
    + destruct (_ ≫= asNotifyWatcher); simpl; by split; [|intros [_ ?]].
    + by split; [|intros [? _]].
  - rewrite <- (Hcase _ _ asStringsWatcher
                  (λ sw, mkSrvStringsWatcher sw id (resources r))).
    destruct (isAgent (entity r)); simpl.
    + destruct (_ ≫= asStringsWatcher); simpl; by split; [|intros [_ ?]].
    + by split; [|intros [? _]].
  - rewrite <- (Hcase _ _ asMultiWatcher
                  (λ mw, mkSrvClientAllWatcher mw id (resources r))).
    destruct (isAgent (entity r)); simpl.
    + by split; [|intros [? _]].
    + destruct (_ ≫= asMultiWatcher); simpl; by split; [|intros [_ ?]].
Qed.

(** X2.  Every call of a watcher accessor returns either a wrapper with
    the nil error or no wrapper with [ErrPerm] or [ErrUnknownWatcher], never
    both or neither and never another error, and leaves the world as it
    was, on success as on failure. *)
Theorem watcher_result_shape r id w :
  wrapper_xor_error (value_of (NotifyWatcher r id) w)
  ∧ wrapper_xor_error (value_of (StringsWatcher r id) w)
  ∧ wrapper_xor_error (value_of (AllWatcher r id) w)
  ∧ world_after (NotifyWatcher r id) w = w
  ∧ world_after (StringsWatcher r id) w = w
  ∧ world_after (AllWatcher r id) w = w.
Proof.
  unfold value_of, world_after, wrapper_xor_error.
  rewrite NotifyWatcher_run, StringsWatcher_run, AllWatcher_run. simpl.
  destruct (isAgent (entity r));
    destruct (registered r id w ≫= asNotifyWatcher),
      (registered r id w ≫= asStringsWatcher),
      (registered r id w ≫= asMultiWatcher); simpl; split_and!; eauto.
Qed.

(** X3.  The role gate comes before the registry: whatever the id and the
    world, either [NotifyWatcher] and [StringsWatcher] both answer
    [ErrPerm], or [AllWatcher] does.  No root obtains wrappers from both
    sides, and the wrong side's answer tells nothing of what is
    registered. *)
Theorem watcher_roles_separate r :
  (∀ id w, NotifyWatcher r id w = ((None, Some ErrPerm), w)
           ∧ StringsWatcher r id w = ((None, Some ErrPerm), w))
  ∨ (∀ id w, AllWatcher r id w = ((None, Some ErrPerm), w)).
Proof.
  destruct (isAgent (entity r)) eqn:Hagent; [right | left]; intros id w.
  - by rewrite AllWatcher_run, Hagent.
  - by rewrite NotifyWatcher_run, StringsWatcher_run, Hagent.
Qed.

(** *** Ownership *)

(** X4.  [AuthOwner] answers true exactly for the tag [GetAuthTag]
    returns; asking with the tag just fetched answers true. *)
Theorem AuthOwner_own_tag r tag w :
  (value_of (AuthOwner r tag) w = true ↔ tag = value_of (GetAuthTag r) w)
  ∧ (GetAuthTag r ≫= AuthOwner r) w = (true, w).
Proof.
  unfold value_of, AuthOwner, GetAuthTag. run. split.
  - rewrite bool_decide_eq_true. naive_solver.
  - by rewrite bool_decide_eq_true_2.
Qed.

(** *** Construction *)


(** X6.  When the client facade's constructor leaves the registries alone,
    a new root has nothing registered: each watcher accessor returns no
    wrapper for every id, and the registries that existed are as they
    were. *)
Theorem newSrvRoot_empty_registry (srv0 : Server) (e : Entity) w :
  (∀ st rs a, keeps_heap (NewClientAPI st rs a)) →
  let r := value_of (newSrvRoot srv0 e) w in
  let w' := world_after (newSrvRoot srv0 e) w in
  heap w' !! resources r = Some ∅
  ∧ (∀ id, (value_of (NotifyWatcher r id) w').1 = None
           ∧ (value_of (StringsWatcher r id) w').1 = None
           ∧ (value_of (AllWatcher r id) w').1 = None)
  ∧ (∀ p, is_Some (heap w !! p) → heap w' !! p = heap w !! p).
Proof.
  intros Hkeep r w'.
  assert (Hfresh : heap w !! fresh (dom (heap w)) = None)
    by apply not_elem_of_dom, is_fresh.
  assert (Hnew : resources r = fresh (dom (heap w)) ∧ entity r = e
                 ∧ heap w' = <[fresh (dom (heap w)) := ∅]> (heap w)).
  { subst r w'. unfold newSrvRoot, NewResources. run.
    match goal with
    | |- context [NewClientAPI ?st ?rs ?a ?w1] =>
        pose proof (Hkeep st rs a w1) as Hh; unfold world_after in Hh;
        destruct (NewClientAPI st rs a w1) as [api w2]
    end.
    by simpl in *. }
  destruct Hnew as (Hrs & He & Hh).
  assert (Hnone : ∀ id, registered r id w' = None).
  { intros id. unfold registered, value_of, Get. run.
    rewrite Hh, Hrs, lookup_insert_eq. simpl. unfold Resources.
    by rewrite lookup_empty. }
  split_and!.
  - by rewrite Hh, Hrs, lookup_insert_eq.
  - intros id. unfold value_of.
    rewrite NotifyWatcher_run, StringsWatcher_run, AllWatcher_run, Hnone.
    simpl. by destruct (isAgent (entity r)).
  - intros p [reg Hp]. rewrite Hh. apply lookup_insert_ne. congruence.
Qed.

Lemma newSrvRoot_resources (srv0 : Server) (e : Entity) w :
  resources (value_of (newSrvRoot srv0 e) w) = fresh (dom (heap w)).
Proof.
  unfold newSrvRoot, NewResources. run.
  by destruct (NewClientAPI _ _ _ _).
Qed.

Lemma newSrvRoot_heap (srv0 : Server) (e : Entity) w :
  (∀ st rs a, keeps_heap (NewClientAPI st rs a)) →
  heap (world_after (newSrvRoot srv0 e) w)
    = <[fresh (dom (heap w)) := ∅]> (heap w).
Proof.
  intros Hkeep. unfold newSrvRoot, NewResources. run.
  match goal with
  | |- context [NewClientAPI ?st ?rs ?a ?w1] =>
      pose proof (Hkeep st rs a w1) as Hh; unfold world_after in Hh;
      destruct (NewClientAPI st rs a w1) as [api w2]
  end.
  by simpl in *.
Qed.

(** X10.  When the client facade's constructor leaves the registries
    alone, two roots built one after the other have different registries:
    connections share none. *)
Theorem newSrvRoot_twice_distinct (srv1 srv2 : Server) (e1 e2 : Entity) w :
  (∀ st rs a, keeps_heap (NewClientAPI st rs a)) →
  let r1 := value_of (newSrvRoot srv1 e1) w in
  let w1 := world_after (newSrvRoot srv1 e1) w in
  let r2 := value_of (newSrvRoot srv2 e2) w1 in
  resources r1 ≠ resources r2.
Proof.
  intros Hkeep r1 w1 r2. subst r1 w1 r2.
  rewrite !newSrvRoot_resources, newSrvRoot_heap by done.
  intros Heq.
  apply (is_fresh (dom (<[fresh (dom (heap w)) := ∅]> (heap w)))).
  rewrite <- Heq. apply elem_of_dom. rewrite lookup_insert_eq. by eexists.
Qed.

(** *** Teardown and the accessors *)

(** X7.  After [Kill] no id of the root's registry is usable: every
    watcher accessor returns no wrapper, with [ErrUnknownWatcher] when the
    entity passes its gate and [ErrPerm] when it does not. *)
Theorem Kill_then_watchers r id :
  ∀ w, let w' := world_after (Kill r) w in
  NotifyWatcher r id w' =
    ((None, Some (if isAgent (entity r) then ErrUnknownWatcher else ErrPerm)),
     w')
  ∧ StringsWatcher r id w' =
    ((None, Some (if isAgent (entity r) then ErrUnknownWatcher else ErrPerm)),
     w')
  ∧ AllWatcher r id w' =
    ((None, Some (if isAgent (entity r) then ErrPerm else ErrUnknownWatcher)),
     w').
Proof.
  intros w w'.
  assert (Hgone : registered r id w' = None).
  { subst w'. unfold Kill, world_after, registered, value_of, Get. run.
    destruct (heap w !! resources r) as [reg|] eqn:Hreg.
    - rewrite (StopAll_run _ reg) by done. simpl.
      by rewrite lookup_insert_eq.
    - rewrite StopAll_dangling by done. simpl. by rewrite Hreg. }
  rewrite NotifyWatcher_run, StringsWatcher_run, AllWatcher_run, Hgone.
  simpl. by destruct (isAgent (entity r)).
Qed.

(** X8.  [Kill] of one root leaves the registry of a root with another
    registry as it was: what is registered there, and what its watcher
    accessors return, is the same before and after. *)
Theorem Kill_other_root r1 r2 id w :
  resources r1 ≠ resources r2 →
  let w' := world_after (Kill r1) w in
  registered r2 id w' = registered r2 id w
  ∧ value_of (NotifyWatcher r2 id) w' = value_of (NotifyWatcher r2 id) w
  ∧ value_of (StringsWatcher r2 id) w' = value_of (StringsWatcher r2 id) w
  ∧ value_of (AllWatcher r2 id) w' = value_of (AllWatcher r2 id) w.
Proof.
  intros Hne w'.
  assert (Hsame : registered r2 id w' = registered r2 id w).
  { subst w'. unfold Kill, world_after, registered, value_of, Get. run.
    destruct (heap w !! resources r1) as [reg|] eqn:Hreg.
    - rewrite (StopAll_run _ reg) by done. simpl.
      by rewrite lookup_insert_ne.
    - by rewrite StopAll_dangling. }
  split_and!; [done|..]; unfold value_of.
  - by rewrite !NotifyWatcher_run, Hsame.
  - by rewrite !StringsWatcher_run, Hsame.
  - by rewrite !AllWatcher_run, Hsame.
Qed.

End Properties.

(** ** The root on explicit inputs *)

Import Demo.

(** The demo constructors fail cleanly and admit no client. *)
Lemma demo_new_facade_fails_clean (st : nat) (rs : option ResourcesPtr)
    (r : srvRoot) :
  fails_clean (Demo.new_facade st rs (asAuthorizer r)).
Proof.
  intros w e. unfold value_of, world_after, Demo.new_facade. simpl.
  unfold mbind, M_bind, bind, AuthMachineAgent, mret, M_ret, ret. simpl.
  by destruct (Demo.is_machine (entity r)).
Qed.

Lemma demo_new_facade_rejects_clients (st : nat) (rs : option ResourcesPtr)
    (r : srvRoot) :
  rejects_clients (asAuthorizer r) (Demo.new_facade st rs (asAuthorizer r)).
Proof.
  intros w. unfold value_of, Demo.new_facade. simpl.
  unfold mbind, M_bind, bind, AuthMachineAgent, AuthClient, mret, M_ret, ret.
  simpl. by destruct (entity r).
Qed.

(** C1, counterexample: with the id "nonempty", [Pinger] does not return
    [ErrBadId]. *)
Lemma Pinger_accepts_nonempty_id :
  ¬ ("nonempty" ≠ "" →
     (value_of (Pinger Demo.agent_root "nonempty") Demo.empty_world).2
       = Some ErrBadId).
Proof. intros H. by specialize (H ltac:(done)). Qed.

(** C1, witness: a user's root and the id "nonempty". *)
Lemma facade_accessor_bad_id_witness :
  "nonempty" ≠ ""
  ∧ Machiner Demo.client_root "nonempty" Demo.busy_world
      = ((None, Some ErrBadId), Demo.busy_world)
  ∧ MachineAgent Demo.client_root "nonempty" Demo.busy_world
      = ((None, Some ErrBadId), Demo.busy_world)
  ∧ Deployer Demo.client_root "nonempty" Demo.busy_world
      = ((None, Some ErrBadId), Demo.busy_world)
  ∧ Upgrader Demo.client_root "nonempty" Demo.busy_world
      = ((None, Some ErrBadId), Demo.busy_world).
Proof.
  split; [discriminate|].
  apply (facade_accessor_bad_id Demo.client_root "nonempty" Demo.busy_world).
  discriminate.
Defined.

(** C2, counterexample: a machine agent's root whose registry holds a
    notify watcher under "1"; [AllWatcher "1"] returns [ErrPerm], not
    [ErrUnknownWatcher]. *)
Lemma agent_AllWatcher_not_unknown :
  ¬ (isAgent (entity Demo.agent_root) = true →
     registered Demo.agent_root "1" Demo.busy_world = Some Demo.notify_res →
     asNotifyWatcher Demo.notify_res = Some 7 →
     (value_of (NotifyWatcher Demo.agent_root "1") Demo.busy_world).2 = None
     ∧ (value_of (AllWatcher Demo.agent_root "1") Demo.busy_world).2
         = Some ErrUnknownWatcher).
Proof.
  intros H. destruct H as [_ H]; [reflexivity..|].
  vm_compute in H. discriminate H.
Qed.

(** C2, witness: the same root and registry. *)
Lemma agent_notify_then_all_witness :
  isAgent (entity Demo.agent_root) = true
  ∧ registered Demo.agent_root "1" Demo.busy_world = Some Demo.notify_res
  ∧ asNotifyWatcher Demo.notify_res = Some 7
  ∧ NotifyWatcher Demo.agent_root "1" Demo.busy_world
      = ((Some (mkSrvNotifyWatcher 7 "1" 1%positive), None), Demo.busy_world)
  ∧ AllWatcher Demo.agent_root "1" Demo.busy_world
      = ((None, Some ErrPerm), Demo.busy_world).
Proof.
  split_and!; [reflexivity..| |].
  - apply (agent_notify_then_all Demo.agent_root "1" Demo.busy_world
             Demo.notify_res 7); reflexivity.
  - apply (agent_notify_then_all Demo.agent_root "1" Demo.busy_world
             Demo.notify_res 7); reflexivity.
Defined.

(** C3, counterexample: a user's root with an empty registry;
    [NotifyWatcher "1"] misses and returns [ErrPerm], not
    [ErrUnknownWatcher]. *)
Lemma client_NotifyWatcher_miss_not_unknown :
  ¬ (lacks asNotifyWatcher Demo.client_root "1" Demo.empty_world →
     (value_of (NotifyWatcher Demo.client_root "1") Demo.empty_world).2
       = Some ErrUnknownWatcher).
Proof.
  intros H. assert (Hl : lacks asNotifyWatcher Demo.client_root "1"
                           Demo.empty_world) by (left; reflexivity).
  specialize (H Hl). vm_compute in H. discriminate H.
Qed.

(** C3, witness: an agent asks for id "2", a strings watcher, through each
    accessor. *)
Lemma watcher_accessor_miss_witness :
  lacks asNotifyWatcher Demo.agent_root "2" Demo.busy_world
  ∧ lacks asMultiWatcher Demo.agent_root "2" Demo.busy_world
  ∧ NotifyWatcher Demo.agent_root "2" Demo.busy_world
      = ((None, Some ErrUnknownWatcher), Demo.busy_world)
  ∧ AllWatcher Demo.agent_root "2" Demo.busy_world
      = ((None, Some ErrPerm), Demo.busy_world)
  ∧ registered Demo.agent_root "2" Demo.busy_world ≫= asStringsWatcher
      = Some 8.
Proof.
  assert (Hn : lacks asNotifyWatcher Demo.agent_root "2" Demo.busy_world).
  { right. exists Demo.strings_res. split; reflexivity. }
  assert (Hm : lacks asMultiWatcher Demo.agent_root "2" Demo.busy_world).
  { right. exists Demo.strings_res. split; reflexivity. }
  pose proof (watcher_accessor_miss Demo.agent_root "2" Demo.busy_world)
    as (HN & _ & HA & _ & HS & _).
  split_and!; [exact Hn | exact Hm | exact (HN Hn) | exact (HA Hm) |].
  exact (HS (mkSrvStringsWatcher 8 "2" 1%positive) eq_refl).
Defined.

(** C5, witness: a user's root, whose constructors answer [ErrPerm]. *)
Lemma accessor_failure_frame_witness :
  Machiner Demo.client_root "" Demo.busy_world
    = ((None, Some ErrPerm), Demo.busy_world)
  ∧ fails_clean (Machiner Demo.client_root "")
  ∧ fails_clean (NotifyWatcher Demo.client_root "1").
Proof.
  pose proof (accessor_failure_frame Demo.client_root ""
    (demo_new_facade_fails_clean _ _ _) (demo_new_facade_fails_clean _ _ _)
    (demo_new_facade_fails_clean _ _ _) (demo_new_facade_fails_clean _ _ _))
    as (HM & _).
  pose proof (accessor_failure_frame Demo.client_root "1"
    (demo_new_facade_fails_clean _ _ _) (demo_new_facade_fails_clean _ _ _)
    (demo_new_facade_fails_clean _ _ _) (demo_new_facade_fails_clean _ _ _))
    as (_ & _ & _ & _ & HN & _).
  split_and!; [reflexivity | exact HM | exact HN].
Defined.

(** C6, witness: the registry holds a notify watcher whose stop fails and a
    strings watcher; after [Kill] both have been stopped, the failure is
    logged and the registry is empty. *)
Lemma Kill_stops_all_witness :
  StopResult Demo.notify_res = Some (ErrOther "watcher died")
  ∧ registered Demo.agent_root "1" Demo.busy_world = Some Demo.notify_res
  ∧ registered Demo.agent_root "2" Demo.busy_world = Some Demo.strings_res
  ∧ Demo.notify_res ∈ stopped (world_after (Kill Demo.agent_root) Demo.busy_world)
  ∧ Demo.strings_res ∈ stopped (world_after (Kill Demo.agent_root) Demo.busy_world)
  ∧ registered Demo.agent_root "1"
      (world_after (Kill Demo.agent_root) Demo.busy_world) = None
  ∧ registered Demo.agent_root "2"
      (world_after (Kill Demo.agent_root) Demo.busy_world) = None.
Proof.
  pose proof (Kill_stops_all Demo.agent_root Demo.busy_world)
    as (Hgone & Hstop & _).
  split_and!; [reflexivity..| | | apply Hgone | apply Hgone].
  - apply (Hstop "1"). reflexivity.
  - apply (Hstop "2"). reflexivity.
Defined.

(** C7, witness: a machine agent's root with the id "nonempty", and the
    same root obtaining its Machiner facade with the empty id. *)
Lemma agent_facade_needs_both_witness :
  isAgent (entity Demo.agent_root) = true
  ∧ "nonempty" ≠ ""
  ∧ Machiner Demo.agent_root "nonempty" Demo.empty_world
      = ((None, Some ErrBadId), Demo.empty_world)
  ∧ MachineAgent Demo.agent_root "nonempty" Demo.empty_world
      = ((None, Some ErrBadId), Demo.empty_world)
  ∧ is_Some (value_of (Machiner Demo.agent_root "") Demo.empty_world).1.
Proof.
  pose proof (agent_facade_needs_both Demo.agent_root "nonempty"
    Demo.empty_world
    (demo_new_facade_rejects_clients _ _ _)
    (demo_new_facade_rejects_clients _ _ _)
    (demo_new_facade_rejects_clients _ _ _)
    (demo_new_facade_rejects_clients _ _ _)) as [Hbad _].
  destruct (Hbad ltac:(discriminate)) as (HM & HA & _).
  split_and!; [reflexivity | discriminate | exact HM | exact HA |].
  by eexists.
Defined.

(** X6, witness: a user's root built in a world that already has a
    registry at address 1; the new registry is at address 2 and empty, and
    the old one is as it was. *)
Lemma newSrvRoot_empty_registry_witness :
  let r := value_of (newSrvRoot (mkServer 0) (UserEntity "user-admin"))
             busy_world in
  let w' := world_after (newSrvRoot (mkServer 0) (UserEntity "user-admin"))
              busy_world in
  resources r = 2%positive
  ∧ heap w' !! resources r = Some ∅
  ∧ (value_of (AllWatcher r "1") w').1 = None
  ∧ heap w' !! 1%positive = heap busy_world !! 1%positive.
Proof.
  intros r w'.
  assert (Hkeep : ∀ st rs a, keeps_heap (NewClientAPI st rs a))
    by (intros st rs a w; reflexivity).
  pose proof (newSrvRoot_empty_registry (mkServer 0)
                (UserEntity "user-admin") busy_world Hkeep)
    as (Hempty & Hnone & Hold).
  split_and!; [reflexivity | exact Hempty | apply (Hnone "1") |].
  apply Hold. by eexists.
Defined.

(** X8, witness: tearing down the machine agent's root leaves the unit
    agent's strings watcher registered and obtainable. *)
Lemma Kill_other_root_witness :
  resources agent_root ≠ resources unit_root
  ∧ registered unit_root "1" (world_after (Kill agent_root) two_registries)
      = Some strings_res
  ∧ registered agent_root "1" (world_after (Kill agent_root) two_registries)
      = None.
Proof.
  assert (Hne : resources agent_root ≠ resources unit_root) by discriminate.
  pose proof (Kill_other_root agent_root unit_root "1" two_registries Hne)
    as (Hsame & _).
  split_and!; [exact Hne | | reflexivity].
  etrans; [exact Hsame | reflexivity].
Defined.

(** X10, witness: a user's root and then a machine agent's root, built in
    turn from a world with one registry, sit at addresses 2 and 3. *)
Lemma newSrvRoot_twice_distinct_witness :
  let r1 := value_of (newSrvRoot (mkServer 0) (UserEntity "user-admin"))
              busy_world in
  let w1 := world_after (newSrvRoot (mkServer 0) (UserEntity "user-admin"))
              busy_world in
  let r2 := value_of (newSrvRoot (mkServer 0) (MachineEntity "machine-1" true))
              w1 in
  resources r1 = 2%positive ∧ resources r2 = 3%positive
  ∧ resources r1 ≠ resources r2.
Proof.
  intros r1 w1 r2.
  assert (Hkeep : ∀ st rs a, keeps_heap (NewClientAPI st rs a))
    by (intros st rs a w; reflexivity).
  split_and!; [reflexivity | reflexivity |].
  exact (newSrvRoot_twice_distinct (mkServer 0) (mkServer 0)
           (UserEntity "user-admin") (MachineEntity "machine-1" true)
           busy_world Hkeep).
Defined.
